(** * rewrite_raw_ptr_fields: raw pointer fields into [CheckedPtr<T>]

    A shallow embedding of [RewriteRawPtrFields.cpp]: the match callback
    [FieldDeclRewriter::run], the text generator
    [FieldDeclRewriter::GenerateNewText] and the driver [main], over a small
    model of the parts of the compiler front end that the tool calls
    (source locations, types and their printer, [tooling::Replacement],
    the field matcher and [ClangTool::run]). *)

From Stdlib Require Import String Ascii List ZArith Lia Bool.
From Stdlib Require Import Decimal DecimalString DecimalPos DecimalN.
Import ListNotations.

Local Open Scope string_scope.
Local Open Scope Z_scope.

(** ** Assertions

    [assert(c && "msg")] either goes on or aborts the process.  A computation
    that may hit an assertion returns [Checked A]. *)

Inductive Checked (A : Type) : Type :=
| Done (a : A)
| AssertionFailed (msg : string).

Arguments Done {A} a.
Arguments AssertionFailed {A} msg.

Definition bind {A B : Type} (c : Checked A) (k : A -> Checked B) : Checked B :=
  match c with
  | Done a => k a
  | AssertionFailed msg => AssertionFailed msg
  end.

Definition assert (cond : bool) (msg : string) : Checked unit :=
  if cond then Done tt else AssertionFailed msg.

Notation "x <- c ;; k" := (bind c (fun x => k))
  (at level 61, c at next level, right associativity).
Notation "c ;;; k" := (bind c (fun _ => k))
  (at level 61, right associativity).

(** ** The front end, as far as the tool uses it

    The front end is a library that the tool links against; its code is
    not part of the tool's source.  What follows keeps, of each operation
    that the tool calls, the behaviour that the tool relies on. *)

Module Clang.

(** A file location, decomposed: the file it lies in and the byte offset
    into that file.  Macro locations are left out: the tool does not
    handle them. *)
Record SourceLocation : Type := mkLoc {
  loc_file : string;
  loc_offset : Z
}.

Definition getLocWithOffset (l : SourceLocation) (delta : Z) : SourceLocation :=
  mkLoc (loc_file l) (loc_offset l + delta).

Record SourceRange : Type := mkSourceRange {
  getBegin : SourceLocation;
  getEnd : SourceLocation
}.

(** [CharSourceRange::getCharRange]: the same two locations, read as the
    half-open character range from [csr_begin] up to [csr_end]. *)
Record CharSourceRange : Type := mkCharRange {
  csr_begin : SourceLocation;
  csr_end : SourceLocation
}.

Definition getCharRange (r : SourceRange) : CharSourceRange :=
  mkCharRange (getBegin r) (getEnd r).

(** *** Types *)

Inductive TagTypeKind : Type :=
| TTK_Struct | TTK_Union | TTK_Class | TTK_Enum.

Definition getKindName (k : TagTypeKind) : string :=
  match k with
  | TTK_Struct => "struct"
  | TTK_Union => "union"
  | TTK_Class => "class"
  | TTK_Enum => "enum"
  end.

Record Qualifiers : Type := mkQualifiers {
  hasConst : bool;
  hasVolatile : bool
}.

Definition noQualifiers : Qualifiers := mkQualifiers false false.

(** Type nodes.  A pointer node carries its pointee together with the
    pointee's qualifiers; [ElaboratedType] is a type written with its tag
    keyword ([class SomeClass]); [TypedefType] is sugar over the aliased
    type. *)
Inductive Ty : Type :=
| BuiltinType (name : string)
| RecordType (kind : TagTypeKind) (name : string)
| ElaboratedType (keyword : TagTypeKind) (named : Ty)
| TypedefType (name : string) (underlying : Ty)
| PointerType (pointeeQuals : Qualifiers) (pointee : Ty).

(** A qualified type; [NullQualType] is the default-constructed
    [QualType()]. *)
Inductive QualType : Type :=
| NullQualType
| Qualified (quals : Qualifiers) (ty : Ty).

(** Strips the sugar at the top of a type node. *)
Fixpoint desugar (t : Ty) : Ty :=
  match t with
  | ElaboratedType _ named => desugar named
  | TypedefType _ underlying => desugar underlying
  | _ => t
  end.

(** [Type::isPointerType]: the canonical type is a pointer. *)
Definition isPointerType (q : QualType) : bool :=
  match q with
  | NullQualType => false
  | Qualified _ t =>
      match desugar t with
      | PointerType _ _ => true
      | _ => false
      end
  end.

(** [Type::getPointeeType]: the pointee of a pointer, one level down; the
    null type for anything else. *)
Definition getPointeeType (q : QualType) : QualType :=
  match q with
  | NullQualType => NullQualType
  | Qualified _ t =>
      match desugar t with
      | PointerType pq p => Qualified pq p
      | _ => NullQualType
      end
  end.

(** *** Printing types *)

Record LangOptions : Type := mkLangOptions { CPlusPlus : bool }.

(** A default-constructed [LangOptions] describes plain C. *)
Definition defaultLangOptions : LangOptions := mkLangOptions false.

Record PrintingPolicy : Type := mkPrintingPolicy {
  SuppressTagKeyword : bool
}.

Definition PrintingPolicy_of (lo : LangOptions) : PrintingPolicy :=
  mkPrintingPolicy (CPlusPlus lo).

Definition set_SuppressTagKeyword (p : PrintingPolicy) (b : bool) : PrintingPolicy :=
  mkPrintingPolicy b.

Definition isPointerNode (t : Ty) : bool :=
  match t with
  | PointerType _ _ => true
  | _ => false
  end.

Definition qualifiersBefore (q : Qualifiers) : string :=
  ((if hasConst q then "const " else "") ++
   (if hasVolatile q then "volatile " else ""))%string.

Definition qualifiersAfter (q : Qualifiers) : string :=
  ((if hasConst q then " const" else "") ++
   (if hasVolatile q then " volatile" else ""))%string.

(** Qualifiers are written before a non-pointer type and after the star
    of a pointer type. *)
Definition withQualifiers (q : Qualifiers) (t : Ty) (printed : string) : string :=
  (if isPointerNode t then printed ++ qualifiersAfter q
   else qualifiersBefore q ++ printed)%string.

(** Modelled from the spec: the front end's type printer
    ([QualType::getAsString] with a [PrintingPolicy]) is not part of the
    tool's source.  The spec fixes what the tool relies on: a tag type
    named [Foo] prints as [Foo] when [SuppressTagKeyword] is set and as
    [class Foo] otherwise, [void] prints as [void], and a pointer to
    [SomeClass] prints as [SomeClass*]. *)
Fixpoint printType (policy : PrintingPolicy) (t : Ty) : string :=
  match t with
  | BuiltinType name => name
  | RecordType kind name =>
      if SuppressTagKeyword policy then name
      else (getKindName kind ++ " " ++ name)%string
  | ElaboratedType keyword named =>
      ((if SuppressTagKeyword policy then ""
        else getKindName keyword ++ " ") ++
       printType (set_SuppressTagKeyword policy true) named)%string
  | TypedefType name _ => name
  | PointerType pq p =>
      (withQualifiers pq p (printType policy p) ++ "*")%string
  end.

Definition getAsString (q : QualType) (policy : PrintingPolicy) : string :=
  match q with
  | NullQualType => "NULL TYPE"
  | Qualified quals t => withQualifiers quals t (printType policy t)
  end.

(** *** Declarations and the matcher *)

Record FieldDecl : Type := mkFieldDecl {
  getBeginLoc : SourceLocation;   (* first byte of the declaration *)
  getLocation : SourceLocation;   (* first byte of the field's name *)
  getType : QualType              (* the declared type *)
}.

Inductive Decl : Type :=
| DeclField (fd : FieldDecl)
| DeclOther (ty : QualType).

(** [pointerType()] looks at the type node itself, without desugaring and
    whatever the qualifiers. *)
Definition pointerType (q : QualType) : bool :=
  match q with
  | Qualified _ (PointerType _ _) => true
  | _ => false
  end.

(** [fieldDecl(hasType(pointerType())).bind("fieldDecl")]: a field
    declaration whose type is a pointer matches, and is the bound node. *)
Definition fieldDecl_hasType_pointerType (d : Decl) : option FieldDecl :=
  match d with
  | DeclField fd => if pointerType (getType fd) then Some fd else None
  | DeclOther _ => None
  end.

(** *** tooling::Replacement *)

Definition wrap32 (z : Z) : Z := z mod 2 ^ 32.

Record Replacement : Type := mkReplacement {
  getFilePath : string;
  getOffset : Z;          (* unsigned *)
  getLength : Z;          (* unsigned *)
  getReplacementText : string
}.

(** The size in bytes of a character range; -1 when the two ends are not
    in the same file. *)
Definition getRangeSize (r : CharSourceRange) : Z :=
  if String.eqb (loc_file (csr_begin r)) (loc_file (csr_end r))
  then loc_offset (csr_end r) - loc_offset (csr_begin r)
  else -1.

(** Modelled from the spec: [Replacement(Sources, Range, ReplacementText)]
    is the front end's.  It packages the file path and the byte offset of
    the range's first byte, the range's length in bytes and the text; offset
    and length are [unsigned]. *)
Definition Replacement_of_range (r : CharSourceRange) (text : string) : Replacement :=
  mkReplacement (loc_file (csr_begin r))
                (wrap32 (loc_offset (csr_begin r)))
                (wrap32 (getRangeSize r))
                text.

End Clang.

Import Clang.

(** ** FieldDeclRewriter *)

Definition GenerateNewText (pointer_type : QualType) : Checked string :=
  assert (isPointerType pointer_type) "caller must pass a pointer type!" ;;;
  let pointee_type := getPointeeType pointer_type in
  (* Convert pointee type to string. *)
  let lang_options := defaultLangOptions in
  let printing_policy := PrintingPolicy_of lang_options in
  let printing_policy := set_SuppressTagKeyword printing_policy true in
  let pointee_type_as_string := getAsString pointee_type printing_policy in
  Done ("CheckedPtr<" ++ pointee_type_as_string ++ ">")%string.

(** The span that [run] replaces. *)
Definition replacement_range (field_decl : FieldDecl) : SourceRange :=
  mkSourceRange (getBeginLoc field_decl)
                (getLocWithOffset (getLocation field_decl) (-1)).

(** [FieldDeclRewriter::run]: one match, one more element at the back of
    [replacements_]. *)
Definition run (field_decl : FieldDecl) (replacements_ : list Replacement)
  : Checked (list Replacement) :=
  let pointer_type := getType field_decl in
  assert (isPointerType (getType field_decl))
         "matcher should only match pointer types" ;;;
  new_text <- GenerateNewText pointer_type ;;
  Done (replacements_ ++
        [Replacement_of_range (getCharRange (replacement_range field_decl))
                              new_text])%list.

(** The policy that [GenerateNewText] prints with. *)
Definition policy : PrintingPolicy := mkPrintingPolicy true.

(** The element that [run] puts at the back of [replacements_]. *)
Definition field_edit (field_decl : FieldDecl) : Replacement :=
  Replacement_of_range
    (getCharRange (replacement_range field_decl))
    ("CheckedPtr<" ++ getAsString (getPointeeType (getType field_decl)) policy ++ ">").

(** ** The driver *)

(** One translation unit as the front end hands it to the match finder:
    the declarations of its syntax tree and whether processing it
    failed. *)
Record TranslationUnit : Type := mkTranslationUnit {
  tu_decls : list Decl;
  tu_failed : bool
}.

(** The match finder over one syntax tree: [field_decl_matcher] is tried on
    every declaration in order, and the callback runs on every match. *)
Fixpoint match_finder (decls : list Decl) (replacements : list Replacement)
  : Checked (list Replacement) :=
  match decls with
  | [] => Done replacements
  | d :: rest =>
      match fieldDecl_hasType_pointerType d with
      | Some field_decl =>
          replacements' <- run field_decl replacements ;;
          match_finder rest replacements'
      | None => match_finder rest replacements
      end
  end.

(** Modelled from the spec: [ClangTool::run] is the front end's.  With
    the match finder's action every unit is processed in turn, also after
    a failure; the result is 0 when no unit failed and nonzero (1)
    otherwise. *)
Fixpoint ClangTool_run (units : list TranslationUnit) (ProcessingFailed : bool)
                       (replacements : list Replacement)
  : Checked (Z * list Replacement) :=
  match units with
  | [] => Done (if ProcessingFailed then 1 else 0, replacements)
  | u :: rest =>
      replacements' <- match_finder (tu_decls u) replacements ;;
      ClangTool_run rest (ProcessingFailed || tu_failed u) replacements'
  end.

(** *** Output *)

Definition LF : ascii := "010"%char.
Definition NUL : ascii := "000"%char.

(** [std::replace(first, last, old_value, new_value)] over a string. *)
Fixpoint std_replace (s : string) (old_value new_value : ascii) : string :=
  match s with
  | EmptyString => EmptyString
  | String c s' =>
      String (if Ascii.eqb c old_value then new_value else c)
             (std_replace s' old_value new_value)
  end.

(** [raw_ostream << unsigned]: the number in decimal. *)
Definition write_unsigned (n : Z) : string :=
  NilZero.string_of_uint (N.to_uint (Z.to_N n)).

Definition BEGIN_EDITS : string := "==== BEGIN EDITS ====" ++ String LF "".
Definition END_EDITS : string := "==== END EDITS ====" ++ String LF "".

(** What one pass of the loop in [main] sends to [llvm::outs()], without
    the closing newline. *)
Definition edit_line (r : Replacement) : string :=
  let replacement_text := std_replace (getReplacementText r) LF NUL in
  "r:::" ++ getFilePath r ++ ":::" ++ write_unsigned (getOffset r)
         ++ ":::" ++ write_unsigned (getLength r) ++ ":::" ++ replacement_text.

Definition print_replacement (outs : string) (r : Replacement) : string :=
  outs ++ edit_line r ++ String LF "".

(** How the process ends: it returns from [main] with a status, or an
    assertion aborts it.  Both carry what was written to standard
    output. *)
Inductive ProcessResult : Type :=
| Exited (status : Z) (stdout : string)
| Aborted (msg : string) (stdout : string).

(** The edit block: the last three statements of [main] that write to
    [llvm::outs()]. *)
Definition print_edits (replacements : list Replacement) : string :=
  let outs := "" ++ BEGIN_EDITS in
  let outs := fold_left print_replacement replacements outs in
  outs ++ END_EDITS.

(** [main], from the translation units that the command line names. *)
Definition main (units : list TranslationUnit) : ProcessResult :=
  match ClangTool_run units false [] with
  | AssertionFailed msg => Aborted msg ""
  | Done (result, replacements) =>
      if negb (result =? 0) then Exited result ""
      else Exited 0 (print_edits replacements)
  end.

(** The edits that one unit yields: what the match finder collects over
    its declarations, starting from nothing. *)
Definition unit_edits (u : TranslationUnit) : list Replacement :=
  match match_finder (tu_decls u) [] with
  | Done replacements => replacements
  | AssertionFailed _ => []
  end.

(** The fields of a unit that the matcher binds. *)
Fixpoint matched_fields (decls : list Decl) : list FieldDecl :=
  match decls with
  | [] => []
  | d :: rest =>
      match fieldDecl_hasType_pointerType d with
      | Some field_decl => field_decl :: matched_fields rest
      | None => matched_fields rest
      end
  end.

Fixpoint count_char (c : ascii) (s : string) : nat :=
  match s with
  | EmptyString => O
  | String a s' => ((if Ascii.eqb a c then 1 else 0) + count_char c s')%nat
  end.

(** ** The reader of the edit lines *)

Definition is_colon (c : ascii) : bool := Ascii.eqb c ":".

Definition starts_with_delimiter (s : string) : bool :=
  match s with
  | String a (String b (String c _)) => is_colon a && is_colon b && is_colon c
  | _ => false
  end.

(** The fields of a line: cut at every [:::], leftmost first.  [skip]
    counts the bytes of a delimiter still to pass over; [cur] is the field
    read so far. *)
Fixpoint split_fields (skip : nat) (cur : string) (s : string) : list string :=
  match s with
  | EmptyString => [cur]
  | String c s' =>
      match skip with
      | S k => split_fields k cur s'
      | O =>
          if starts_with_delimiter s then cur :: split_fields 2 "" s'
          else split_fields 0 (cur ++ String c "") s'
      end
  end.

Definition parse_unsigned (s : string) : option Z :=
  match NilZero.uint_of_string s with
  | Some d => Some (Z.of_N (N.of_uint d))
  | None => None
  end.

(** Modelled from the spec: the batch edit-applier that reads the edit
    lines is not part of the tool's source.  A line holds five fields
    separated by the literal [:::]: the tag [r], the file path, the byte
    offset, the byte length and the replacement text, in which a null byte
    stands for a newline. *)
Definition parse_edit_line (line : string) : option Replacement :=
  match split_fields 0 "" line with
  | [tag; file_path; byte_offset; byte_length; text] =>
      if String.eqb tag "r" then
        match parse_unsigned byte_offset, parse_unsigned byte_length with
        | Some offset, Some length =>
            Some (mkReplacement file_path offset length (std_replace text NUL LF))
        | _, _ => None
        end
      else None
  | _ => None
  end.

(** Modelled from the spec: the applier substitutes the bytes
    [offset, offset + length) of the file's original text with the
    replacement text. *)
Definition apply_replacement (original : string) (r : Replacement) : string :=
  let offset := Z.to_nat (getOffset r) in
  let len := Z.to_nat (getLength r) in
  substring 0 offset original ++ getReplacementText r
    ++ substring (offset + len) (String.length original - (offset + len)) original.

(** The bytes of a file that a replacement covers. *)
Definition in_span (r : Replacement) (i : Z) : bool :=
  (getOffset r <=? i) && (i <? getOffset r + getLength r).

Definition replaced_bytes (original : string) (r : Replacement) : string :=
  substring (Z.to_nat (getOffset r)) (Z.to_nat (getLength r)) original.

(** ** Written type and span *)

Definition isWhitespace (c : ascii) : bool :=
  Ascii.eqb c " " || Ascii.eqb c "009" || Ascii.eqb c "010" ||
  Ascii.eqb c "011" || Ascii.eqb c "012" || Ascii.eqb c "013".

Definition byte_at (text : string) (i : Z) : option ascii :=
  if i <? 0 then None else String.get (Z.to_nat i) text.

(** The written type of a field is what the declaration holds before the
    field's name, whitespace apart.  A replacement covers it when each of
    these bytes lies in its span. *)
Definition covers_written_type (text : string) (field_decl : FieldDecl)
                               (r : Replacement) : Prop :=
  forall (i : Z) (c : ascii),
    loc_offset (getBeginLoc field_decl) <= i < loc_offset (getLocation field_decl) ->
    byte_at text i = Some c ->
    isWhitespace c = false ->
    in_span r i = true.

(** ** Test inputs *)

Definition SomeClass : Ty := RecordType TTK_Class "SomeClass".

(** The first two fields of the test input's [MyStruct]. *)
Definition MyStruct_text : string :=
"class SomeClass;

struct MyStruct {
  // Expected rewrite: CheckedPtr<CheckedPtr<SomeClass>> double_ptr;
  // TODO(lukasza): Handle recursion/nesting.
  SomeClass** double_ptr;

  // Expected rewrite: CheckedPtr<void> void_ptr;
  void* void_ptr;
};
".

Definition test_file : string := "basics.cc".

(** [SomeClass** double_ptr;] *)
Definition double_ptr : FieldDecl :=
  mkFieldDecl (mkLoc test_file 153) (mkLoc test_file 165)
    (Qualified noQualifiers
       (PointerType noQualifiers (PointerType noQualifiers SomeClass))).

(** [void* void_ptr;] *)
Definition void_ptr : FieldDecl :=
  mkFieldDecl (mkLoc test_file 230) (mkLoc test_file 236)
    (Qualified noQualifiers (PointerType noQualifiers (BuiltinType "void"))).

Definition MyStruct_unit : TranslationUnit :=
  mkTranslationUnit
    [DeclOther (Qualified noQualifiers SomeClass);
     DeclField double_ptr; DeclField void_ptr]
    false.

(** The example of the comment in [run]:
    [const Pointee* const field_name_;] *)
Definition field_name_text : string := "const Pointee* const field_name_;".

Definition field_name_ : FieldDecl :=
  mkFieldDecl (mkLoc test_file 0) (mkLoc test_file 21)
    (Qualified (mkQualifiers true false)
       (PointerType (mkQualifiers true false) (RecordType TTK_Class "Pointee"))).

(** A field whose star is written next to its name: [int *y;] *)
Definition star_y_text : string := "int *y;".

Definition star_y : FieldDecl :=
  mkFieldDecl (mkLoc test_file 0) (mkLoc test_file 5)
    (Qualified noQualifiers (PointerType noQualifiers (BuiltinType "int"))).

(** A field whose type is not a pointer: [int int_field;] *)
Definition int_field : FieldDecl :=
  mkFieldDecl (mkLoc test_file 0) (mkLoc test_file 4)
    (Qualified noQualifiers (BuiltinType "int")).

(** A unit that fails after its field has been matched. *)
Definition failing_unit : TranslationUnit :=
  mkTranslationUnit [DeclField void_ptr] true.

(** A unit without pointer fields. *)
Definition plain_unit : TranslationUnit :=
  mkTranslationUnit
    [DeclOther (Qualified noQualifiers SomeClass); DeclField int_field] false.

(** A replacement text of two lines. *)
Definition two_line_edit : Replacement :=
  mkReplacement "basics.cc" 3 4 ("CheckedPtr<" ++ String LF "SomeClass>").

(** A record for a file whose name holds a newline. *)
Definition newline_path_edit : Replacement :=
  mkReplacement ("a" ++ String LF "b") 0 1 "x".


(** ** Vocabulary of the statements *)

(** One record of the edit block, with the newline that closes it. *)
Definition record_line (r : Replacement) : string :=
  edit_line r ++ String LF "".

(** [:::] occurs somewhere in the string. *)
Fixpoint contains_delimiter (s : string) : bool :=
  match s with
  | EmptyString => false
  | String _ s' => starts_with_delimiter s || contains_delimiter s'
  end.

Fixpoint ends_with_colon (s : string) : bool :=
  match s with
  | EmptyString => false
  | String c EmptyString => is_colon c
  | String _ s' => ends_with_colon s'
  end.

Fixpoint string_all (P : ascii -> bool) (s : string) : bool :=
  match s with
  | EmptyString => true
  | String c s' => P c && string_all P s'
  end.

Definition is_digit (c : ascii) : bool :=
  (48 <=? N_of_ascii c)%N && (N_of_ascii c <=? 57)%N.

(** The lines of a text: it is cut at every newline byte; what follows the
    last newline is the last element, empty when the text ends in a
    newline.  [cur] is the line read so far. *)
Fixpoint split_lines_from (cur : string) (s : string) : list string :=
  match s with
  | EmptyString => [cur]
  | String c s' =>
      if Ascii.eqb c LF then cur :: split_lines_from "" s'
      else split_lines_from (cur ++ String c "") s'
  end.

Definition split_lines (s : string) : list string := split_lines_from "" s.

(** A record that the reader of the edit lines can take in: numbers that
    are not negative, a path without [:::] that does not end in a colon, a
    text without [:::] and without null byte. *)
Definition readable_record (r : Replacement) : bool :=
  (0 <=? getOffset r) && (0 <=? getLength r) &&
  negb (contains_delimiter (getFilePath r)) &&
  negb (ends_with_colon (getFilePath r)) &&
  negb (contains_delimiter (getReplacementText r)) &&
  (count_char NUL (getReplacementText r) =? 0)%nat.

(** The path of the record holds no newline. *)
Definition path_on_one_line (r : Replacement) : bool :=
  (count_char LF (getFilePath r) =? 0)%nat.

(** Two fields of one declaration, [int *a, *b;]: both start where the
    declaration starts. *)
Definition two_declarators_text : string := "int *a, *b;".

Definition declarator_a : FieldDecl :=
  mkFieldDecl (mkLoc test_file 0) (mkLoc test_file 5)
    (Qualified noQualifiers (PointerType noQualifiers (BuiltinType "int"))).

Definition declarator_b : FieldDecl :=
  mkFieldDecl (mkLoc test_file 0) (mkLoc test_file 9)
    (Qualified noQualifiers (PointerType noQualifiers (BuiltinType "int"))).

(** * Properties *)

(** ** Strings *)

Lemma append_nil_r (s : string) : (s ++ "")%string = s.
Proof. induction s as [|c s IH]; simpl; [reflexivity | now rewrite IH]. Qed.

Lemma append_assoc (a b c : string) :
  ((a ++ b) ++ c)%string = (a ++ (b ++ c))%string.
Proof. induction a as [|x a IH]; simpl; [reflexivity | now rewrite IH]. Qed.

Lemma count_char_append (c : ascii) (a b : string) :
  count_char c (a ++ b) = (count_char c a + count_char c b)%nat.
Proof.
  induction a as [|x a IH]; simpl; [reflexivity|].
  rewrite IH. lia.
Qed.

(** ** The test inputs are where the text has them *)

Example double_ptr_located :
  substring 153 11 MyStruct_text = "SomeClass**" /\
  substring 165 11 MyStruct_text = "double_ptr;".
Proof. split; reflexivity. Qed.

Example void_ptr_located :
  substring 230 5 MyStruct_text = "void*" /\
  substring 236 9 MyStruct_text = "void_ptr;".
Proof. split; reflexivity. Qed.

Example field_name_located :
  substring 0 20 field_name_text = "const Pointee* const" /\
  substring 21 12 field_name_text = "field_name_;".
Proof. split; reflexivity. Qed.

Example star_y_located :
  substring 0 5 star_y_text = "int *" /\ substring 5 2 star_y_text = "y;".
Proof. split; reflexivity. Qed.

(** ** Text generation *)

Lemma GenerateNewText_pointer (q pq : Qualifiers) (p : Ty) :
  GenerateNewText (Qualified q (PointerType pq p)) =
  Done ("CheckedPtr<" ++ getAsString (Qualified pq p) policy ++ ">")%string.
Proof. reflexivity. Qed.

Lemma GenerateNewText_isPointerType (t : QualType) :
  isPointerType t = true ->
  GenerateNewText t =
  Done ("CheckedPtr<" ++ getAsString (getPointeeType t) policy ++ ">")%string.
Proof.
  intros H. unfold GenerateNewText. rewrite H. reflexivity.
Qed.

Lemma GenerateNewText_not_pointer (t : QualType) :
  isPointerType t = false ->
  GenerateNewText t = AssertionFailed "caller must pass a pointer type!".
Proof.
  intros H. unfold GenerateNewText. rewrite H. reflexivity.
Qed.

Lemma pointerType_isPointerType (t : QualType) :
  pointerType t = true -> isPointerType t = true.
Proof.
  destruct t as [|q [n|k n|k t|n t|pq p]]; simpl; congruence.
Qed.

Lemma matcher_binds_pointer (d : Decl) (field_decl : FieldDecl) :
  fieldDecl_hasType_pointerType d = Some field_decl ->
  d = DeclField field_decl /\ pointerType (getType field_decl) = true.
Proof.
  destruct d as [fd|ty]; simpl; [|discriminate].
  destruct (pointerType (getType fd)) eqn:E; [|discriminate].
  intros [= <-]. now split.
Qed.

Lemma run_isPointerType (field_decl : FieldDecl) (rs : list Replacement) :
  isPointerType (getType field_decl) = true ->
  run field_decl rs = Done (rs ++ [field_edit field_decl])%list.
Proof.
  intros H. unfold run. rewrite H. simpl.
  rewrite (GenerateNewText_isPointerType _ H). reflexivity.
Qed.

Lemma run_not_pointer (field_decl : FieldDecl) (rs : list Replacement) :
  isPointerType (getType field_decl) = false ->
  run field_decl rs = AssertionFailed "matcher should only match pointer types".
Proof.
  intros H. unfold run. rewrite H. reflexivity.
Qed.

Lemma match_finder_collects (decls : list Decl) (rs : list Replacement) :
  match_finder decls rs =
  Done (rs ++ map field_edit (matched_fields decls))%list.
Proof.
  revert rs. induction decls as [|d rest IH]; intros rs; simpl.
  - now rewrite app_nil_r.
  - destruct (fieldDecl_hasType_pointerType d) as [fd|] eqn:E; [|apply IH].
    apply matcher_binds_pointer in E as [_ E].
    rewrite (run_isPointerType fd rs (pointerType_isPointerType _ E)).
    simpl. rewrite IH. now rewrite <- app_assoc.
Qed.

Lemma unit_edits_fields (u : TranslationUnit) :
  unit_edits u = map field_edit (matched_fields (tu_decls u)).
Proof. unfold unit_edits. now rewrite match_finder_collects. Qed.

Lemma ClangTool_run_collects (units : list TranslationUnit) (failed : bool)
                             (rs : list Replacement) :
  ClangTool_run units failed rs =
  Done (if failed || existsb tu_failed units then 1 else 0,
        (rs ++ flat_map unit_edits units)%list).
Proof.
  revert failed rs. induction units as [|u rest IH]; intros failed rs; simpl.
  - now rewrite orb_false_r, app_nil_r.
  - rewrite match_finder_collects. simpl. rewrite IH.
    rewrite unit_edits_fields, orb_assoc, app_assoc. reflexivity.
Qed.

(** ** Replacement text *)

(** Without line 95 of the source the tag keyword would be printed: a
    default [LangOptions] is not C++. *)
Remark tag_keyword_without_suppression :
  getAsString (Qualified noQualifiers SomeClass)
              (PrintingPolicy_of defaultLangOptions) = "class SomeClass".
Proof. reflexivity. Qed.

(** C7: the qualifiers of the pointer itself do not reach the replacement
    text.  For a field whose declared type is a pointer with qualifiers
    [q], the text that [run] records is [CheckedPtr<] + the pointee as
    printed + [>], and it is the text of the same pointer without
    qualifiers. *)
Theorem pointer_qualifiers_dropped
  (q pq : Qualifiers) (p : Ty) (begin_loc name_loc : SourceLocation)
  (rs : list Replacement) :
  let pointer_type := Qualified q (PointerType pq p) in
  let field_decl := mkFieldDecl begin_loc name_loc pointer_type in
  let text := ("CheckedPtr<" ++ getAsString (Qualified pq p) policy ++ ">")%string in
  GenerateNewText pointer_type = Done text /\
  GenerateNewText (Qualified noQualifiers (PointerType pq p)) = Done text /\
  fieldDecl_hasType_pointerType (DeclField field_decl) = Some field_decl /\
  exists r, run field_decl rs = Done (rs ++ [r])%list /\
            getReplacementText r = text.
Proof.
  cbv zeta. repeat split.
  eexists. split; reflexivity.
Qed.

(** The example of the source: the [const] after the star is gone, the
    [const] of the pointee stays. *)
Example field_name_text_generated :
  GenerateNewText (getType field_name_) = Done "CheckedPtr<const Pointee>".
Proof. reflexivity. Qed.

(** C3: a pointer to a class or struct is rewritten to [CheckedPtr<] + the
    bare name + [>], whether the field's type is written [SomeClass*] or
    with its tag keyword, [class SomeClass*]. *)
Theorem tag_keyword_suppressed
  (q : Qualifiers) (kind keyword : TagTypeKind) (name : string) :
  GenerateNewText
    (Qualified q (PointerType noQualifiers (RecordType kind name))) =
  Done ("CheckedPtr<" ++ name ++ ">")%string /\
  GenerateNewText
    (Qualified q (PointerType noQualifiers
                    (ElaboratedType keyword (RecordType kind name)))) =
  Done ("CheckedPtr<" ++ name ++ ">")%string.
Proof. split; reflexivity. Qed.

Example SomeClass_pointer_text :
  GenerateNewText (Qualified noQualifiers (PointerType noQualifiers SomeClass)) =
  Done "CheckedPtr<SomeClass>" /\
  GenerateNewText (Qualified noQualifiers
                     (PointerType noQualifiers (ElaboratedType TTK_Class SomeClass))) =
  Done "CheckedPtr<SomeClass>".
Proof. split; reflexivity. Qed.

(** C2: for [SomeClass** double_ptr;] one run of the tool records one
    replacement, with the text [CheckedPtr<SomeClass*>]: the pointee is
    taken one level down and printed as it is, a pointer included; the
    nested [CheckedPtr<CheckedPtr<SomeClass>>] is not produced. *)
Theorem double_ptr_one_level :
  main [mkTranslationUnit [DeclField double_ptr] false] =
  Exited 0 (BEGIN_EDITS
            ++ "r:::basics.cc:::153:::11:::CheckedPtr<SomeClass*>" ++ String LF ""
            ++ END_EDITS) /\
  run double_ptr [] =
  Done [mkReplacement test_file 153 11 "CheckedPtr<SomeClass*>"] /\
  GenerateNewText (getType double_ptr) <>
  Done "CheckedPtr<CheckedPtr<SomeClass>>" /\
  forall (q pq1 pq2 : Qualifiers) (p : Ty),
    GenerateNewText (Qualified q (PointerType pq1 (PointerType pq2 p))) =
    Done ("CheckedPtr<"
          ++ (withQualifiers pq2 p (printType policy p) ++ "*" ++ qualifiersAfter pq1)
          ++ ">")%string.
Proof.
  split; [reflexivity|]. split; [reflexivity|]. split; [discriminate|].
  intros q pq1 pq2 p. rewrite GenerateNewText_pointer.
  unfold getAsString. unfold withQualifiers at 1.
  cbn [isPointerNode printType]. now rewrite (append_assoc _ "*" (qualifiersAfter pq1)).
Qed.

(** C8: [void* void_ptr;] is given the text [CheckedPtr<void>], over the
    bytes of [void*], so that the declaration reads
    [CheckedPtr<void> void_ptr;] once the edit is applied. *)
Theorem void_ptr_rewritten :
  let r := mkReplacement test_file 230 5 "CheckedPtr<void>" in
  GenerateNewText (getType void_ptr) = Done "CheckedPtr<void>" /\
  run void_ptr [] = Done [r] /\
  replaced_bytes MyStruct_text r = "void*" /\
  substring 230 26 (apply_replacement MyStruct_text r) =
  "CheckedPtr<void> void_ptr;".
Proof. cbv zeta. repeat split. Qed.

(** ** Assertions *)

(** C9: on a type that is not a pointer both assertions fail, in [run] and
    in [GenerateNewText]; on a pointer type neither does, and [run]
    records its replacement.  What the field matcher binds has a pointer
    type, so the match finder and [main] never stop on an assertion. *)
Theorem assertions_and_matcher :
  (forall (field_decl : FieldDecl) (rs : list Replacement),
      isPointerType (getType field_decl) = false ->
      run field_decl rs =
      AssertionFailed "matcher should only match pointer types" /\
      GenerateNewText (getType field_decl) =
      AssertionFailed "caller must pass a pointer type!") /\
  (forall (field_decl : FieldDecl) (rs : list Replacement),
      isPointerType (getType field_decl) = true ->
      exists text,
        GenerateNewText (getType field_decl) = Done text /\
        run field_decl rs =
        Done (rs ++ [Replacement_of_range
                       (getCharRange (replacement_range field_decl)) text])%list) /\
  (forall (d : Decl) (field_decl : FieldDecl),
      fieldDecl_hasType_pointerType d = Some field_decl ->
      isPointerType (getType field_decl) = true) /\
  (forall (decls : list Decl) (rs : list Replacement),
      exists rs', match_finder decls rs = Done rs') /\
  (forall units : list TranslationUnit,
      exists status out, main units = Exited status out).
Proof.
  repeat split.
  - now apply run_not_pointer.
  - now apply GenerateNewText_not_pointer.
  - intros fd rs H. eexists. split.
    + now apply GenerateNewText_isPointerType.
    + now apply run_isPointerType.
  - intros d fd H. apply matcher_binds_pointer in H as [_ H].
    now apply pointerType_isPointerType.
  - intros decls rs. eexists. apply match_finder_collects.
  - intros units. unfold main. rewrite ClangTool_run_collects.
    destruct (negb _); eauto.
Qed.

Lemma assertions_and_matcher_witness :
  run int_field [] = AssertionFailed "matcher should only match pointer types" /\
  (exists text, GenerateNewText (getType void_ptr) = Done text) /\
  isPointerType (getType double_ptr) = true.
Proof.
  destruct assertions_and_matcher as (H1 & H2 & H3 & _).
  split; [apply (H1 int_field []); reflexivity|].
  split.
  - destruct (H2 void_ptr [] eq_refl) as (text & Htext & _). now exists text.
  - apply (H3 (DeclField double_ptr) double_ptr). reflexivity.
Defined.

(** ** The replacement span *)

Lemma wrap32_small (z : Z) : 0 <= z < 2 ^ 32 -> wrap32 z = z.
Proof. intros H. unfold wrap32. now apply Z.mod_small. Qed.

Lemma field_edit_span (field_decl : FieldDecl) :
  loc_file (getBeginLoc field_decl) = loc_file (getLocation field_decl) ->
  0 <= loc_offset (getBeginLoc field_decl) < loc_offset (getLocation field_decl) ->
  loc_offset (getLocation field_decl) < 2 ^ 32 ->
  field_edit field_decl =
  mkReplacement (loc_file (getBeginLoc field_decl))
                (loc_offset (getBeginLoc field_decl))
                (loc_offset (getLocation field_decl) - 1
                 - loc_offset (getBeginLoc field_decl))
                (getReplacementText (field_edit field_decl)).
Proof.
  intros Hfile Hlt Hmax.
  unfold field_edit, Replacement_of_range, getRangeSize, getCharRange,
    replacement_range, getLocWithOffset.
  cbn [csr_begin csr_end getBegin getEnd loc_file loc_offset getReplacementText].
  rewrite Hfile, String.eqb_refl.
  rewrite !wrap32_small by lia.
  f_equal; lia.
Qed.

(** C1, as the code has it: for a matched field whose declaration starts
    before its name in the same file, [run] records the half-open byte
    range from the start of the declaration to one byte before the name.
    The range leaves out the name and the one byte before it; it covers
    the written type exactly when that byte is whitespace. *)
Theorem replacement_span (field_decl : FieldDecl) (rs : list Replacement) :
  pointerType (getType field_decl) = true ->
  loc_file (getBeginLoc field_decl) = loc_file (getLocation field_decl) ->
  0 <= loc_offset (getBeginLoc field_decl) < loc_offset (getLocation field_decl) ->
  loc_offset (getLocation field_decl) < 2 ^ 32 ->
  let decl_start := loc_offset (getBeginLoc field_decl) in
  let name_location := loc_offset (getLocation field_decl) in
  exists new_text,
    let r := mkReplacement (loc_file (getBeginLoc field_decl)) decl_start
                           (name_location - 1 - decl_start) new_text in
    GenerateNewText (getType field_decl) = Done new_text /\
    run field_decl rs = Done (rs ++ [r])%list /\
    (forall i, in_span r i = true <-> decl_start <= i < name_location - 1) /\
    (forall i, name_location - 1 <= i -> in_span r i = false) /\
    (forall text c,
        byte_at text (name_location - 1) = Some c ->
        (covers_written_type text field_decl r <-> isWhitespace c = true)).
Proof.
  intros Hptr Hfile Hlt Hmax. cbv zeta.
  apply pointerType_isPointerType in Hptr.
  exists (getReplacementText (field_edit field_decl)).
  assert (Hspan : forall i,
             in_span (field_edit field_decl) i = true <->
             loc_offset (getBeginLoc field_decl) <= i
             < loc_offset (getLocation field_decl) - 1).
  { intros i. rewrite (field_edit_span _ Hfile Hlt Hmax).
    unfold in_span. cbn [getOffset getLength].
    rewrite andb_true_iff, Z.leb_le, Z.ltb_lt. lia. }
  rewrite <- (field_edit_span _ Hfile Hlt Hmax).
  split; [now apply GenerateNewText_isPointerType|].
  split; [now apply run_isPointerType|].
  split; [exact Hspan|].
  split.
  - intros i Hi. destruct (in_span (field_edit field_decl) i) eqn:E; [|reflexivity].
    apply Hspan in E. lia.
  - intros text c Hc. split.
    + intros Hcov. destruct (isWhitespace c) eqn:Ews; [reflexivity|].
      assert (E : in_span (field_edit field_decl)
                          (loc_offset (getLocation field_decl) - 1) = true).
      { apply (Hcov _ c); [lia | exact Hc | exact Ews]. }
      apply Hspan in E. lia.
    + intros Hws i c' Hi Hc' Hnws. apply Hspan.
      destruct (Z.eq_dec i (loc_offset (getLocation field_decl) - 1)) as [->|Hne];
        [|lia].
      rewrite Hc in Hc'. injection Hc' as <-. congruence.
Qed.

Lemma replacement_span_witness :
  exists new_text,
    run field_name_ [] = Done [mkReplacement test_file 0 20 new_text] /\
    covers_written_type field_name_text field_name_
                        (mkReplacement test_file 0 20 new_text).
Proof.
  destruct (replacement_span field_name_ [] eq_refl eq_refl
              ltac:(simpl; lia) ltac:(simpl; lia))
    as (new_text & _ & Hrun & _ & _ & Hcov).
  exists new_text. split; [exact Hrun|].
  apply (Hcov field_name_text " "%char); reflexivity.
Defined.

(** The text of the source's example, before and after the edit. *)
Example field_name_rewritten :
  let r := mkReplacement test_file 0 20 "CheckedPtr<const Pointee>" in
  run field_name_ [] = Done [r] /\
  replaced_bytes field_name_text r = "const Pointee* const" /\
  apply_replacement field_name_text r = "CheckedPtr<const Pointee> field_name_;".
Proof. cbv zeta. repeat split. Qed.

(** C1, as the spec words it, fails where the star is written next to the
    name: for [int *y;] the span is the four bytes of [int ], the star at
    byte 4 is outside, and the edit leaves [CheckedPtr<int>*y;]. *)
Lemma star_outside_span :
  let r := mkReplacement test_file 0 4 "CheckedPtr<int>" in
  fieldDecl_hasType_pointerType (DeclField star_y) = Some star_y /\
  run star_y [] = Done [r] /\
  replaced_bytes star_y_text r = "int " /\
  byte_at star_y_text 4 = Some "*"%char /\
  in_span r 4 = false /\
  ~ covers_written_type star_y_text star_y r /\
  apply_replacement star_y_text r = "CheckedPtr<int>*y;".
Proof.
  cbv zeta. repeat split.
  intros Hcov.
  specialize (Hcov 4 "*"%char ltac:(simpl; lia) eq_refl eq_refl).
  discriminate.
Qed.

(** ** The edit block *)

Lemma fold_print_replacement (rs : list Replacement) (outs : string) :
  fold_left print_replacement rs outs =
  (outs ++ String.concat "" (map record_line rs))%string.
Proof.
  revert outs. induction rs as [|r rs IH]; intros outs.
  - simpl. now rewrite append_nil_r.
  - cbn [fold_left map]. rewrite IH. unfold print_replacement.
    rewrite append_assoc. f_equal.
    destruct rs as [|r' rs']; cbn [map String.concat].
    + now rewrite append_nil_r.
    + unfold record_line. cbn [String.append]. reflexivity.
Qed.

Lemma print_edits_block (rs : list Replacement) :
  print_edits rs =
  (BEGIN_EDITS ++ String.concat "" (map record_line rs) ++ END_EDITS)%string.
Proof.
  unfold print_edits. rewrite fold_print_replacement.
  cbn [String.append]. now rewrite append_assoc.
Qed.

Lemma main_result (units : list TranslationUnit) :
  main units =
  if existsb tu_failed units then Exited 1 ""
  else Exited 0 (print_edits (flat_map unit_edits units)).
Proof.
  unfold main. rewrite ClangTool_run_collects. simpl.
  now destruct (existsb tu_failed units).
Qed.

Lemma record_line_bytes (r : Replacement) :
  record_line r =
  ("r:::" ++ getFilePath r
          ++ ":::" ++ write_unsigned (getOffset r)
          ++ ":::" ++ write_unsigned (getLength r)
          ++ ":::" ++ std_replace (getReplacementText r) LF NUL
          ++ String LF "")%string.
Proof.
  unfold record_line, edit_line. cbv zeta. now rewrite !append_assoc.
Qed.

(** C4, as the code has it: when some unit fails the process exits with a
    status other than 0 and writes nothing, neither records nor marker
    lines; when none fails it exits with 0 and writes, between the two
    marker lines, the records of the first unit's edits, then those of the
    second, and so on: one record for each field that the matcher binds in
    a unit, in the unit's order.  Nothing is merged: an edit that several
    units yield is written once for each of them. *)
Theorem all_or_nothing (units : list TranslationUnit) :
  (existsb tu_failed units = true ->
   exists status, status <> 0 /\ main units = Exited status "") /\
  (existsb tu_failed units = false ->
   main units =
   Exited 0
     (("==== BEGIN EDITS ====" ++ String LF "")
      ++ String.concat ""
           (map (fun r =>
                   "r:::" ++ getFilePath r
                   ++ ":::" ++ write_unsigned (getOffset r)
                   ++ ":::" ++ write_unsigned (getLength r)
                   ++ ":::" ++ std_replace (getReplacementText r) LF NUL
                   ++ String LF "")
                (flat_map unit_edits units))
      ++ ("==== END EDITS ====" ++ String LF ""))%string) /\
  (forall u,
      match_finder (tu_decls u) [] = Done (unit_edits u) /\
      unit_edits u = map field_edit (matched_fields (tu_decls u)) /\
      forall field_decl,
        In field_decl (matched_fields (tu_decls u)) ->
        run field_decl [] = Done [field_edit field_decl]).
Proof.
  rewrite main_result. repeat split.
  - intros ->. exists 1. now split.
  - intros ->. rewrite print_edits_block.
    now rewrite (map_ext _ _ record_line_bytes).
  - rewrite match_finder_collects. now rewrite unit_edits_fields.
  - apply unit_edits_fields.
  - intros fd Hfd.
    assert (Hptr : pointerType (getType fd) = true).
    { revert Hfd. generalize (tu_decls u) as decls.
      induction decls as [|d rest IH]; simpl; [tauto|].
      destruct (fieldDecl_hasType_pointerType d) as [fd'|] eqn:E; [|exact IH].
      intros [<-|H]; [|now apply IH].
      now apply matcher_binds_pointer in E. }
    now rewrite (run_isPointerType fd [] (pointerType_isPointerType _ Hptr)).
Qed.

Lemma all_or_nothing_witness :
  (exists status, status <> 0 /\
                  main [MyStruct_unit; failing_unit] = Exited status "") /\
  main [MyStruct_unit; plain_unit] =
  Exited 0
"==== BEGIN EDITS ====
r:::basics.cc:::153:::11:::CheckedPtr<SomeClass*>
r:::basics.cc:::230:::5:::CheckedPtr<void>
==== END EDITS ====
" /\
  run void_ptr [] = Done [mkReplacement test_file 230 5 "CheckedPtr<void>"].
Proof.
  split; [|split].
  - apply (proj1 (all_or_nothing [MyStruct_unit; failing_unit])). reflexivity.
  - apply (proj1 (proj2 (all_or_nothing [MyStruct_unit; plain_unit]))).
    reflexivity.
  - apply (proj2 (proj2 (proj2 (proj2 (all_or_nothing [])) MyStruct_unit))
                 void_ptr).
    simpl. auto.
Defined.

(** C4, as the spec words it, fails when two units yield the same edit, as
    two units that include one header do: the edits of the two units are
    the same two, their union holds two edits, and the block has four
    records, each edit twice. *)
Lemma shared_edit_written_twice :
  existsb tu_failed [MyStruct_unit; MyStruct_unit] = false /\
  unit_edits MyStruct_unit =
  [mkReplacement test_file 153 11 "CheckedPtr<SomeClass*>";
   mkReplacement test_file 230 5 "CheckedPtr<void>"] /\
  main [MyStruct_unit; MyStruct_unit] =
  Exited 0
"==== BEGIN EDITS ====
r:::basics.cc:::153:::11:::CheckedPtr<SomeClass*>
r:::basics.cc:::230:::5:::CheckedPtr<void>
r:::basics.cc:::153:::11:::CheckedPtr<SomeClass*>
r:::basics.cc:::230:::5:::CheckedPtr<void>
==== END EDITS ====
" /\
  ~ NoDup (flat_map unit_edits [MyStruct_unit; MyStruct_unit]).
Proof.
  repeat split.
  intros H. inversion H as [|x l Hnotin _]; subst.
  apply Hnotin. simpl. auto.
Qed.

(** The block of the test input. *)
Example MyStruct_block :
  main [MyStruct_unit] =
  Exited 0
"==== BEGIN EDITS ====
r:::basics.cc:::153:::11:::CheckedPtr<SomeClass*>
r:::basics.cc:::230:::5:::CheckedPtr<void>
==== END EDITS ====
".
Proof. reflexivity. Qed.

Lemma no_match_no_edits (units : list TranslationUnit) :
  (forall u, In u units -> matched_fields (tu_decls u) = []) ->
  flat_map unit_edits units = [].
Proof.
  induction units as [|u rest IH]; intros H; [reflexivity|].
  simpl. rewrite unit_edits_fields, (H u (or_introl eq_refl)). simpl.
  apply IH. intros u' Hu'. apply H. now right.
Qed.

(** C10: when no unit fails and the matcher binds no field, the process
    exits with 0 and writes the two marker lines and nothing between
    them. *)
Theorem empty_match_set (units : list TranslationUnit) :
  existsb tu_failed units = false ->
  (forall u, In u units -> matched_fields (tu_decls u) = []) ->
  main units =
  Exited 0
"==== BEGIN EDITS ====
==== END EDITS ====
".
Proof.
  intros Hok Hnone. rewrite main_result, Hok, print_edits_block.
  now rewrite (no_match_no_edits units Hnone).
Qed.

Lemma empty_match_set_witness :
  main [plain_unit; plain_unit] =
  Exited 0 (BEGIN_EDITS ++ END_EDITS).
Proof.
  apply (empty_match_set [plain_unit; plain_unit]); [reflexivity|].
  intros u [<-|[<-|[]]]; reflexivity.
Defined.

(** ** Numbers in decimal *)

Lemma string_of_uint_digits (d : uint) :
  string_all is_digit (NilEmpty.string_of_uint d) = true.
Proof. induction d; simpl; auto. Qed.

Lemma write_unsigned_digits (n : Z) :
  string_all is_digit (write_unsigned n) = true.
Proof.
  unfold write_unsigned, NilZero.string_of_uint.
  destruct (N.to_uint (Z.to_N n)) eqn:E; try reflexivity;
    rewrite <- E; apply string_of_uint_digits.
Qed.

Lemma to_uint_nonnil (n : N) : N.to_uint n <> Nil.
Proof.
  destruct n as [|p]; [discriminate|].
  apply DecimalPos.Unsigned.to_uint_nonnil.
Qed.

Lemma parse_write_unsigned (n : Z) :
  0 <= n -> parse_unsigned (write_unsigned n) = Some n.
Proof.
  intros Hn. unfold parse_unsigned, write_unsigned.
  rewrite NilZero.usu by apply to_uint_nonnil.
  now rewrite DecimalN.Unsigned.of_to, Z2N.id.
Qed.

Lemma string_all_count (P : ascii -> bool) (c : ascii) (s : string) :
  string_all P s = true -> P c = false -> count_char c s = 0%nat.
Proof.
  intros Hs Hc. induction s as [|a s IH]; [reflexivity|].
  simpl in *. apply andb_true_iff in Hs as [Ha Hs].
  destruct (Ascii.eqb_spec a c) as [->|_]; [congruence|].
  now rewrite IH.
Qed.

Lemma digit_not_colon (c : ascii) : is_digit c = true -> is_colon c = false.
Proof.
  unfold is_colon. destruct (Ascii.eqb_spec c ":") as [->|_]; [|reflexivity].
  discriminate.
Qed.

(** ** Newlines and null bytes *)

Lemma std_replace_get (s : string) (old_value new_value : ascii) (i : nat) :
  String.get i (std_replace s old_value new_value) =
  option_map (fun c => if Ascii.eqb c old_value then new_value else c)
             (String.get i s).
Proof.
  revert i. induction s as [|a s IH]; intros i; [reflexivity|].
  destruct i as [|i]; simpl; [reflexivity | apply IH].
Qed.

Lemma std_replace_no_LF (s : string) :
  count_char LF (std_replace s LF NUL) = 0%nat.
Proof.
  induction s as [|a s IH]; [reflexivity|].
  simpl. rewrite IH.
  destruct (Ascii.eqb_spec a LF) as [->|Hne]; [reflexivity|].
  now destruct (Ascii.eqb_spec a LF).
Qed.

Lemma std_replace_back (s : string) :
  count_char NUL s = 0%nat ->
  std_replace (std_replace s LF NUL) NUL LF = s.
Proof.
  induction s as [|a s IH]; [reflexivity|].
  simpl. intros H.
  destruct (Ascii.eqb_spec a NUL) as [->|Hnul]; [discriminate|].
  rewrite IH by exact H. f_equal.
  destruct (Ascii.eqb_spec a LF) as [->|Hlf]; [reflexivity|].
  now destruct (Ascii.eqb_spec a NUL).
Qed.

Lemma is_colon_replace (c : ascii) :
  is_colon (if Ascii.eqb c LF then NUL else c) = is_colon c.
Proof. destruct (Ascii.eqb_spec c LF) as [->|_]; reflexivity. Qed.

Lemma starts_with_delimiter_replace (s : string) :
  starts_with_delimiter (std_replace s LF NUL) = starts_with_delimiter s.
Proof.
  destruct s as [|a [|b [|c s]]]; try reflexivity.
  simpl. now rewrite !is_colon_replace.
Qed.

Lemma contains_delimiter_replace (s : string) :
  contains_delimiter (std_replace s LF NUL) = contains_delimiter s.
Proof.
  induction s as [|a s IH]; [reflexivity|].
  change (std_replace (String a s) LF NUL)
    with (String (if Ascii.eqb a LF then NUL else a) (std_replace s LF NUL)).
  cbn [contains_delimiter]. rewrite IH. f_equal.
  apply (starts_with_delimiter_replace (String a s)).
Qed.

(** ** Cutting a line into fields *)

Lemma delimiter_not_before_end (c : ascii) (a rest : string) :
  starts_with_delimiter (String c a) = false ->
  ends_with_colon (String c a) = false ->
  starts_with_delimiter (String c (a ++ ":::" ++ rest)) = false.
Proof.
  destruct a as [|c2 [|c3 a]]; simpl; intros Hs He.
  - now rewrite He.
  - rewrite He. now rewrite andb_false_r.
  - exact Hs.
Qed.

Lemma ends_with_colon_tail (c : ascii) (a : string) :
  ends_with_colon (String c a) = false -> ends_with_colon a = false.
Proof. destruct a; [reflexivity | simpl; auto]. Qed.

Lemma split_fields_field (a : string) :
  forall cur rest,
    contains_delimiter a = false ->
    ends_with_colon a = false ->
    split_fields 0 cur (a ++ ":::" ++ rest) =
    (cur ++ a)%string :: split_fields 0 "" rest.
Proof.
  induction a as [|c a IH]; intros cur rest Hc He.
  - simpl. now rewrite append_nil_r.
  - cbn [contains_delimiter] in Hc. apply orb_false_iff in Hc as [Hs Hc].
    change ((String c a ++ ":::" ++ rest)%string)
      with (String c (a ++ ":::" ++ rest)).
    cbn [split_fields].
    rewrite (delimiter_not_before_end c a rest Hs He).
    rewrite (IH _ rest Hc (ends_with_colon_tail c a He)).
    now rewrite append_assoc.
Qed.

Lemma split_fields_last (t : string) :
  forall cur, contains_delimiter t = false -> split_fields 0 cur t = [(cur ++ t)%string].
Proof.
  induction t as [|c t IH]; intros cur Hc.
  - simpl. now rewrite append_nil_r.
  - cbn [contains_delimiter] in Hc. apply orb_false_iff in Hc as [Hs Hc].
    cbn [split_fields]. rewrite Hs, (IH _ Hc). now rewrite append_assoc.
Qed.

Lemma no_colon_field (s : string) :
  string_all (fun c => negb (is_colon c)) s = true ->
  contains_delimiter s = false /\ ends_with_colon s = false.
Proof.
  induction s as [|c s IH]; [now split|].
  cbn [string_all]. intros H. apply andb_true_iff in H as [Hc Hs].
  apply negb_true_iff in Hc. destruct (IH Hs) as [IH1 IH2]. split.
  - cbn [contains_delimiter]. rewrite IH1, orb_false_r.
    destruct s as [|b [|d s]]; try reflexivity. simpl. now rewrite Hc.
  - destruct s; [exact Hc | exact IH2].
Qed.

Lemma string_all_impl (P Q : ascii -> bool) (s : string) :
  (forall c, P c = true -> Q c = true) ->
  string_all P s = true -> string_all Q s = true.
Proof.
  intros HPQ. induction s as [|c s IH]; [reflexivity|].
  simpl. intros H. apply andb_true_iff in H as [Hc Hs].
  now rewrite (HPQ c Hc), IH.
Qed.

Lemma write_unsigned_field (n : Z) :
  contains_delimiter (write_unsigned n) = false /\
  ends_with_colon (write_unsigned n) = false.
Proof.
  apply no_colon_field.
  apply (string_all_impl is_digit); [|apply write_unsigned_digits].
  intros c Hc. now rewrite (digit_not_colon c Hc).
Qed.

Lemma edit_line_fields (r : Replacement) :
  contains_delimiter (getFilePath r) = false ->
  ends_with_colon (getFilePath r) = false ->
  contains_delimiter (getReplacementText r) = false ->
  split_fields 0 "" (edit_line r) =
  ["r"; getFilePath r; write_unsigned (getOffset r);
   write_unsigned (getLength r); std_replace (getReplacementText r) LF NUL].
Proof.
  intros Hp1 Hp2 Ht. unfold edit_line. cbv zeta.
  change ("r:::" ++ ?x)%string with ("r" ++ ":::" ++ x)%string.
  rewrite split_fields_field by reflexivity.
  rewrite (split_fields_field (getFilePath r)) by assumption.
  destruct (write_unsigned_field (getOffset r)) as [Ho1 Ho2].
  destruct (write_unsigned_field (getLength r)) as [Hl1 Hl2].
  rewrite (split_fields_field (write_unsigned (getOffset r))) by assumption.
  rewrite (split_fields_field (write_unsigned (getLength r))) by assumption.
  rewrite split_fields_last by now rewrite contains_delimiter_replace.
  reflexivity.
Qed.

(** ** The format of a record *)

Lemma edit_line_LF (r : Replacement) :
  count_char LF (edit_line r) = count_char LF (getFilePath r).
Proof.
  unfold edit_line. cbv zeta. rewrite !count_char_append.
  rewrite std_replace_no_LF.
  rewrite !(string_all_count is_digit LF _ (write_unsigned_digits _) eq_refl).
  simpl. lia.
Qed.

(** C5, as the code has it: a record is written as [r:::], the file path,
    [:::], the offset in decimal, [:::], the length in decimal, [:::], the
    text with every newline byte turned into a null byte and every other
    byte as it is, and one newline; the records stand between the two
    marker lines.  Path and text are written without escaping, so the
    record is one line when the path holds no newline. *)
Theorem record_format (r : Replacement) (outs : string) :
  print_replacement outs r =
  (outs ++ "r:::" ++ getFilePath r
        ++ ":::" ++ write_unsigned (getOffset r)
        ++ ":::" ++ write_unsigned (getLength r)
        ++ ":::" ++ std_replace (getReplacementText r) LF NUL
        ++ String LF "")%string /\
  (forall i,
      String.get i (std_replace (getReplacementText r) LF NUL) =
      option_map (fun c => if Ascii.eqb c LF then NUL else c)
                 (String.get i (getReplacementText r))) /\
  count_char LF (std_replace (getReplacementText r) LF NUL) = 0%nat /\
  (count_char LF (getFilePath r) = 0%nat ->
   count_char LF (print_replacement "" r) = 1%nat) /\
  (forall rs,
      print_edits rs =
      (BEGIN_EDITS ++ String.concat "" (map (print_replacement "") rs)
                   ++ END_EDITS)%string).
Proof.
  repeat split.
  - unfold print_replacement, edit_line. cbv zeta.
    now rewrite !append_assoc.
  - intros i. apply std_replace_get.
  - apply std_replace_no_LF.
  - intros Hpath. unfold print_replacement. cbn [String.append].
    rewrite count_char_append, edit_line_LF, Hpath. reflexivity.
  - intros rs. apply print_edits_block.
Qed.

Lemma record_format_witness :
  count_char LF (print_replacement "" two_line_edit) = 1%nat /\
  print_replacement "" two_line_edit =
  ("r:::basics.cc:::3:::4:::CheckedPtr<" ++ String NUL "SomeClass>"
   ++ String LF "")%string.
Proof.
  split.
  - apply (proj1 (proj2 (proj2 (proj2 (record_format two_line_edit ""))))).
    reflexivity.
  - reflexivity.
Defined.

(** C5, as the spec words it, fails on a path with a newline in it: the
    path is written as it is and the record takes two lines. *)
Lemma newline_in_path_two_lines :
  print_replacement "" newline_path_edit =
  ("r:::a" ++ String LF "b:::0:::1:::x" ++ String LF "")%string /\
  count_char LF (print_replacement "" newline_path_edit) = 2%nat.
Proof. split; reflexivity. Qed.

(** ** Reading a record back *)



(** The records of the test input come back as they were. *)
Example MyStruct_round_trip :
  map (fun r => parse_edit_line (edit_line r)) (unit_edits MyStruct_unit) =
  map Some (unit_edits MyStruct_unit).
Proof. reflexivity. Qed.


(** * Further properties *)

(** ** Which declarations are rewritten *)

Lemma matched_fields_In (decls : list Decl) (field_decl : FieldDecl) :
  In field_decl (matched_fields decls) <->
  In (DeclField field_decl) decls /\ pointerType (getType field_decl) = true.
Proof.
  induction decls as [|d rest IH]; simpl.
  - tauto.
  - destruct (fieldDecl_hasType_pointerType d) as [fd|] eqn:E.
    + apply matcher_binds_pointer in E as [-> E]. simpl. rewrite IH. split.
      * intros [<-|[H1 H2]]; auto.
      * intros [[[= ->]|H1] H2]; auto.
    + rewrite IH. split; [tauto|].
      intros [[->|H1] H2]; [|tauto].
      simpl in E. rewrite H2 in E. discriminate.
Qed.

Lemma run_alone (field_decl : FieldDecl) (r : Replacement) :
  pointerType (getType field_decl) = true ->
  (run field_decl [] = Done [r] <-> r = field_edit field_decl).
Proof.
  intros H. rewrite (run_isPointerType _ [] (pointerType_isPointerType _ H)).
  simpl. split; [now intros [= <-] | now intros ->].
Qed.

(** X1: the records that a run collects are the records of the pointer
    fields, no more and no less.  A replacement is among the edits of the
    units exactly when some unit holds a field declaration whose type is a
    pointer and for which [run] records this replacement; declarations
    that are not fields, and fields of another type, leave no record. *)
Theorem edits_are_pointer_fields (units : list TranslationUnit) (r : Replacement) :
  In r (flat_map unit_edits units) <->
  exists u field_decl,
    In u units /\ In (DeclField field_decl) (tu_decls u) /\
    pointerType (getType field_decl) = true /\
    run field_decl [] = Done [r].
Proof.
  rewrite in_flat_map. split.
  - intros (u & Hu & Hr). rewrite unit_edits_fields, in_map_iff in Hr.
    destruct Hr as (fd & <- & Hfd). apply matched_fields_In in Hfd as [H1 H2].
    exists u, fd. repeat split; auto. now apply run_alone.
  - intros (u & fd & Hu & Hin & Hptr & Hrun). exists u. split; [exact Hu|].
    rewrite unit_edits_fields, in_map_iff. exists fd. split.
    + symmetry. now apply run_alone.
    + apply matched_fields_In. now split.
Qed.

Lemma edits_are_pointer_fields_witness :
  In (mkReplacement test_file 230 5 "CheckedPtr<void>")
     (flat_map unit_edits [plain_unit; MyStruct_unit]).
Proof.
  apply (proj2 (edits_are_pointer_fields [plain_unit; MyStruct_unit] _)).
  exists MyStruct_unit, void_ptr. repeat split.
  - simpl. auto.
  - simpl. auto.
Defined.

(** ** Spans of two fields *)

Lemma run_twice (fd1 fd2 : FieldDecl) (rs : list Replacement) :
  pointerType (getType fd1) = true ->
  pointerType (getType fd2) = true ->
  (rs1 <- run fd1 rs ;; run fd2 rs1) =
  Done (rs ++ [field_edit fd1; field_edit fd2])%list.
Proof.
  intros H1 H2.
  rewrite (run_isPointerType _ rs (pointerType_isPointerType _ H1)). simpl.
  rewrite (run_isPointerType _ _ (pointerType_isPointerType _ H2)).
  now rewrite <- app_assoc.
Qed.

Lemma field_edit_in_span (field_decl : FieldDecl) (i : Z) :
  loc_file (getBeginLoc field_decl) = loc_file (getLocation field_decl) ->
  0 <= loc_offset (getBeginLoc field_decl) < loc_offset (getLocation field_decl) ->
  loc_offset (getLocation field_decl) < 2 ^ 32 ->
  in_span (field_edit field_decl) i = true <->
  loc_offset (getBeginLoc field_decl) <= i < loc_offset (getLocation field_decl) - 1.
Proof.
  intros Hfile Hlt Hmax. rewrite (field_edit_span _ Hfile Hlt Hmax).
  unfold in_span. cbn [getOffset getLength].
  rewrite andb_true_iff, Z.leb_le, Z.ltb_lt. lia.
Qed.

(** X2: the edits of two separate declarations do not overlap.  When the
    name of one matched field lies before the start of the declaration of
    another, running the callback on the one and then on the other
    records two replacements whose spans share no byte. *)
Theorem separate_declarations_disjoint (fd1 fd2 : FieldDecl) (rs : list Replacement) :
  pointerType (getType fd1) = true ->
  pointerType (getType fd2) = true ->
  loc_file (getBeginLoc fd1) = loc_file (getLocation fd1) ->
  loc_file (getBeginLoc fd2) = loc_file (getLocation fd2) ->
  0 <= loc_offset (getBeginLoc fd1) < loc_offset (getLocation fd1) ->
  loc_offset (getLocation fd1) <= loc_offset (getBeginLoc fd2) ->
  loc_offset (getBeginLoc fd2) < loc_offset (getLocation fd2) ->
  loc_offset (getLocation fd2) < 2 ^ 32 ->
  exists r1 r2,
    (rs1 <- run fd1 rs ;; run fd2 rs1) = Done (rs ++ [r1; r2])%list /\
    forall i, in_span r1 i && in_span r2 i = false.
Proof.
  intros P1 P2 F1 F2 L1 L12 L2 M.
  exists (field_edit fd1), (field_edit fd2). split; [now apply run_twice|].
  intros i.
  destruct (in_span (field_edit fd1) i) eqn:E1; [|reflexivity].
  destruct (in_span (field_edit fd2) i) eqn:E2; [|reflexivity].
  apply field_edit_in_span in E1; [|assumption|assumption|lia].
  apply field_edit_in_span in E2; [|assumption|lia|assumption].
  lia.
Qed.

Lemma separate_declarations_disjoint_witness :
  exists r1 r2,
    (rs1 <- run double_ptr [] ;; run void_ptr rs1) = Done [r1; r2] /\
    forall i, in_span r1 i && in_span r2 i = false.
Proof.
  apply (separate_declarations_disjoint double_ptr void_ptr []);
    try reflexivity; simpl; lia.
Defined.

(** X3: two fields that start at the same location, as the declarators of
    one declaration do, get overlapping edits: the span of the field
    whose name comes first lies within the span of the other, in the same
    file, and holds at least the first byte of the declaration. *)
Theorem shared_start_overlap (fd1 fd2 : FieldDecl) (rs : list Replacement) :
  pointerType (getType fd1) = true ->
  pointerType (getType fd2) = true ->
  getBeginLoc fd1 = getBeginLoc fd2 ->
  loc_file (getBeginLoc fd1) = loc_file (getLocation fd1) ->
  loc_file (getBeginLoc fd2) = loc_file (getLocation fd2) ->
  0 <= loc_offset (getBeginLoc fd1) ->
  loc_offset (getBeginLoc fd1) + 1 < loc_offset (getLocation fd1) ->
  loc_offset (getLocation fd1) < loc_offset (getLocation fd2) ->
  loc_offset (getLocation fd2) < 2 ^ 32 ->
  exists r1 r2,
    (rs1 <- run fd1 rs ;; run fd2 rs1) = Done (rs ++ [r1; r2])%list /\
    getFilePath r1 = getFilePath r2 /\
    (forall i, in_span r1 i = true -> in_span r2 i = true) /\
    in_span r1 (loc_offset (getBeginLoc fd1)) = true.
Proof.
  intros P1 P2 B F1 F2 L0 L1 L12 M.
  exists (field_edit fd1), (field_edit fd2). split; [now apply run_twice|].
  split; [unfold field_edit, Replacement_of_range; simpl; now rewrite B|].
  split.
  - intros i E1.
    apply field_edit_in_span in E1; [|assumption|lia|lia].
    apply field_edit_in_span; [assumption|rewrite <- B; lia|assumption|].
    rewrite <- B. lia.
  - apply field_edit_in_span; [assumption|lia|lia|lia].
Qed.

Lemma shared_start_overlap_witness :
  exists r1 r2,
    (rs1 <- run declarator_a [] ;; run declarator_b rs1) = Done [r1; r2] /\
    getFilePath r1 = getFilePath r2 /\
    (forall i, in_span r1 i = true -> in_span r2 i = true) /\
    in_span r1 0 = true.
Proof.
  apply (shared_start_overlap declarator_a declarator_b []);
    try reflexivity; simpl; lia.
Defined.

(** The two declarators are where the text has them, and their edits both
    start at byte 0. *)
Example two_declarators_edits :
  substring 5 1 two_declarators_text = "a" /\
  substring 9 1 two_declarators_text = "b" /\
  match_finder [DeclField declarator_a; DeclField declarator_b] [] =
  Done [mkReplacement test_file 0 4 "CheckedPtr<int>";
        mkReplacement test_file 0 8 "CheckedPtr<int>"].
Proof. repeat split. Qed.

(** ** The substitution of newlines *)

Lemma std_replace_length (s : string) (old_value new_value : ascii) :
  String.length (std_replace s old_value new_value) = String.length s.
Proof. induction s as [|a s IH]; simpl; [reflexivity | now rewrite IH]. Qed.

Lemma std_replace_absent (s : string) (old_value new_value : ascii) :
  count_char old_value s = 0%nat -> std_replace s old_value new_value = s.
Proof.
  induction s as [|a s IH]; [reflexivity|].
  simpl. destruct (Ascii.eqb a old_value); [discriminate|].
  intros H. now rewrite IH.
Qed.

Lemma std_replace_count_old (s : string) (old_value new_value : ascii) :
  old_value <> new_value ->
  count_char old_value (std_replace s old_value new_value) = 0%nat.
Proof.
  intros Hne. induction s as [|a s IH]; [reflexivity|].
  simpl. rewrite IH.
  destruct (Ascii.eqb_spec a old_value) as [->|Ha].
  - destruct (Ascii.eqb_spec new_value old_value); [congruence | reflexivity].
  - destruct (Ascii.eqb_spec a old_value); [congruence | reflexivity].
Qed.

Lemma std_replace_count_new (s : string) (old_value new_value : ascii) :
  old_value <> new_value ->
  count_char new_value (std_replace s old_value new_value) =
  (count_char old_value s + count_char new_value s)%nat.
Proof.
  intros Hne. induction s as [|a s IH]; [reflexivity|].
  simpl. rewrite IH.
  destruct (Ascii.eqb_spec a old_value) as [->|Ha].
  - rewrite Ascii.eqb_refl.
    destruct (Ascii.eqb_spec old_value new_value); [congruence | lia].
  - destruct (Ascii.eqb a new_value); lia.
Qed.

(** X4: what [std::replace] does to a text.  The text keeps its length; a
    text without the old byte comes out as it is; and when the two bytes
    differ the old byte is gone from the result, each of its occurrences
    counted among those of the new byte. *)
Theorem std_replace_counts (s : string) (old_value new_value : ascii) :
  String.length (std_replace s old_value new_value) = String.length s /\
  (count_char old_value s = 0%nat -> std_replace s old_value new_value = s) /\
  (old_value <> new_value ->
   count_char old_value (std_replace s old_value new_value) = 0%nat /\
   count_char new_value (std_replace s old_value new_value) =
   (count_char old_value s + count_char new_value s)%nat).
Proof.
  split; [apply std_replace_length|].
  split; [apply std_replace_absent|].
  intros Hne. split;
    [now apply std_replace_count_old | now apply std_replace_count_new].
Qed.

Lemma std_replace_counts_witness :
  std_replace "CheckedPtr<void>" LF NUL = "CheckedPtr<void>" /\
  count_char NUL (std_replace (getReplacementText two_line_edit) LF NUL) = 1%nat.
Proof.
  split.
  - apply (proj1 (proj2 (std_replace_counts "CheckedPtr<void>" LF NUL))).
    reflexivity.
  - apply (proj2 (proj2 (std_replace_counts
                           (getReplacementText two_line_edit) LF NUL))).
    discriminate.
Defined.

Lemma edit_line_text (p : string) (o l : Z) (t t' : string) :
  std_replace t LF NUL = std_replace t' LF NUL ->
  edit_line (mkReplacement p o l t) = edit_line (mkReplacement p o l t').
Proof. intros H. unfold edit_line. simpl. now rewrite H. Qed.

(** X5: the line of a record does not tell a newline in the text from a
    null byte.  A record whose text holds a newline has the line of
    another record, the one whose text has null bytes in the place of the
    newlines. *)
Theorem newline_and_null_collide (r : Replacement) :
  count_char LF (getReplacementText r) <> 0%nat ->
  let r' := mkReplacement (getFilePath r) (getOffset r) (getLength r)
                          (std_replace (getReplacementText r) LF NUL) in
  r' <> r /\ edit_line r' = edit_line r.
Proof.
  intros Hlf. cbv zeta. split.
  - intros E. apply (f_equal getReplacementText) in E. simpl in E.
    apply Hlf. rewrite <- E. now apply std_replace_count_old.
  - destruct r as [p o l t]. simpl. apply edit_line_text.
    apply std_replace_absent. now apply std_replace_count_old.
Qed.

Lemma newline_and_null_collide_witness :
  edit_line (mkReplacement "basics.cc" 3 4 ("CheckedPtr<" ++ String NUL "SomeClass>")) =
  edit_line two_line_edit.
Proof.
  apply (proj2 (newline_and_null_collide two_line_edit ltac:(discriminate))).
Defined.

(** ** The lines of the edit block *)

Lemma split_lines_from_line (a : string) :
  forall cur rest,
    count_char LF a = 0%nat ->
    split_lines_from cur (a ++ String LF rest) =
    (cur ++ a)%string :: split_lines_from "" rest.
Proof.
  induction a as [|c a IH]; intros cur rest H.
  - simpl. now rewrite append_nil_r.
  - simpl in H. cbn [String.append split_lines_from].
    destruct (Ascii.eqb c LF); [discriminate|].
    rewrite IH by exact H. now rewrite append_assoc.
Qed.

Lemma split_lines_records (rs : list Replacement) (rest : string) :
  (forall r, In r rs -> path_on_one_line r = true) ->
  split_lines_from "" (String.concat "" (map record_line rs) ++ rest) =
  (map edit_line rs ++ split_lines_from "" rest)%list.
Proof.
  induction rs as [|r rs IH]; intros H; [reflexivity|].
  assert (Hr : count_char LF (edit_line r) = 0%nat).
  { rewrite edit_line_LF. apply Nat.eqb_eq. apply (H r). now left. }
  assert (IH' := IH (fun r' Hr' => H r' (or_intror Hr'))).
  cbn [map app].
  replace (String.concat "" (record_line r :: map record_line rs) ++ rest)%string
    with (edit_line r ++ String LF (String.concat "" (map record_line rs) ++ rest))%string.
  - rewrite (split_lines_from_line _ "" _ Hr). cbn [String.append]. now rewrite IH'.
  - unfold record_line at 2. destruct rs as [|r' rs'].
    + cbn [map String.concat]. now rewrite !append_assoc.
    + cbn [map String.concat]. cbn [String.append]. now rewrite !append_assoc.
Qed.

Lemma print_edits_lines (rs : list Replacement) :
  (forall r, In r rs -> path_on_one_line r = true) ->
  split_lines (print_edits rs) =
  ("==== BEGIN EDITS ====" :: map edit_line rs
   ++ ["==== END EDITS ===="; ""])%list.
Proof.
  intros H. rewrite print_edits_block. unfold split_lines.
  change (BEGIN_EDITS ++ ?x)%string
    with ("==== BEGIN EDITS ====" ++ String LF x)%string.
  rewrite (split_lines_from_line "==== BEGIN EDITS ====" "" _ eq_refl).
  cbn [String.append]. f_equal.
  rewrite (split_lines_records rs END_EDITS H). reflexivity.
Qed.

(** X6: the standard output of a run without failure, cut at its newline
    bytes, is the line [==== BEGIN EDITS ====], then one line for each
    edit of the units in their order, then the line
    [==== END EDITS ====], and nothing after its newline, when no path
    of an edit holds a newline. *)
Theorem main_output_lines (units : list TranslationUnit) :
  existsb tu_failed units = false ->
  (forall r, In r (flat_map unit_edits units) -> path_on_one_line r = true) ->
  exists out,
    main units = Exited 0 out /\
    split_lines out =
    ("==== BEGIN EDITS ====" :: map edit_line (flat_map unit_edits units)
     ++ ["==== END EDITS ===="; ""])%list.
Proof.
  intros Hok Hpaths. rewrite main_result, Hok.
  eexists. split; [reflexivity|]. now apply print_edits_lines.
Qed.

Lemma main_output_lines_witness :
  exists out,
    main [MyStruct_unit] = Exited 0 out /\
    split_lines out =
    ["==== BEGIN EDITS ====";
     "r:::basics.cc:::153:::11:::CheckedPtr<SomeClass*>";
     "r:::basics.cc:::230:::5:::CheckedPtr<void>";
     "==== END EDITS ====";
     ""].
Proof.
  apply (main_output_lines [MyStruct_unit]); [reflexivity|].
  intros r [<-|[<-|[]]]; reflexivity.
Defined.

(** ** Records and their lines *)

Lemma readable_record_spec (r : Replacement) :
  readable_record r = true ->
  0 <= getOffset r /\ 0 <= getLength r /\
  contains_delimiter (getFilePath r) = false /\
  ends_with_colon (getFilePath r) = false /\
  contains_delimiter (getReplacementText r) = false /\
  count_char NUL (getReplacementText r) = 0%nat.
Proof.
  unfold readable_record. rewrite !andb_true_iff, !negb_true_iff.
  rewrite !Z.leb_le, Nat.eqb_eq. tauto.
Qed.

Lemma edit_line_read_back (r : Replacement) :
  readable_record r = true -> parse_edit_line (edit_line r) = Some r.
Proof.
  intros H. apply readable_record_spec in H
    as (Ho & Hl & Hp1 & Hp2 & Ht1 & Ht2).
  unfold parse_edit_line.
  rewrite (edit_line_fields r Hp1 Hp2 Ht1). cbn [String.eqb Ascii.eqb Bool.eqb].
  rewrite (parse_write_unsigned _ Ho), (parse_write_unsigned _ Hl).
  rewrite (std_replace_back _ Ht2). now destruct r.
Qed.

(** X7: two records that the reader can take in and that differ never
    have the same line: from equal lines follow equal paths, offsets,
    lengths and texts. *)
Theorem edit_line_injective (r1 r2 : Replacement) :
  readable_record r1 = true ->
  readable_record r2 = true ->
  edit_line r1 = edit_line r2 ->
  r1 = r2.
Proof.
  intros H1 H2 E.
  apply edit_line_read_back in H1. apply edit_line_read_back in H2.
  rewrite E in H1. rewrite H1 in H2. now injection H2.
Qed.

Lemma edit_line_injective_witness :
  mkReplacement "basics.cc" (1 + 2) 4 ("CheckedPtr<" ++ String LF "SomeClass>") =
  two_line_edit.
Proof.
  apply (edit_line_injective _ two_line_edit); reflexivity.
Defined.

Lemma read_back_all (rs : list Replacement) :
  (forall r, In r rs -> readable_record r = true) ->
  map parse_edit_line (map edit_line rs) = map Some rs.
Proof.
  induction rs as [|r rs IH]; intros H; [reflexivity|].
  simpl. rewrite (edit_line_read_back r (H r (or_introl eq_refl))).
  f_equal. apply IH. intros r' Hr'. apply H. now right.
Qed.

(** X8: the whole edit block is read back.  When every record can be
    taken in by the reader and has a path without newline, the block that
    [main] writes for them, cut at its newlines, is the two marker lines
    around one line for each record, and reading these lines gives the
    records back, in their order. *)
Theorem edit_block_read_back (rs : list Replacement) :
  (forall r, In r rs -> readable_record r = true /\ path_on_one_line r = true) ->
  exists lines,
    split_lines (print_edits rs) =
    ("==== BEGIN EDITS ====" :: lines ++ ["==== END EDITS ===="; ""])%list /\
    map parse_edit_line lines = map Some rs.
Proof.
  intros H. exists (map edit_line rs). split.
  - apply print_edits_lines. intros r Hr. now apply H.
  - apply read_back_all. intros r Hr. now apply H.
Qed.

Lemma edit_block_read_back_witness :
  exists lines,
    split_lines (print_edits (unit_edits MyStruct_unit ++ [two_line_edit])) =
    ("==== BEGIN EDITS ====" :: lines ++ ["==== END EDITS ===="; ""])%list /\
    map parse_edit_line lines =
    map Some (unit_edits MyStruct_unit ++ [two_line_edit]).
Proof.
  apply (edit_block_read_back (unit_edits MyStruct_unit ++ [two_line_edit])).
  intros r [<-|[<-|[<-|[]]]]; split; reflexivity.
Defined.

(** ** The edit in the text *)

Lemma length_append (a b : string) :
  String.length (a ++ b) = (String.length a + String.length b)%nat.
Proof. induction a as [|c a IH]; simpl; [reflexivity | now rewrite IH]. Qed.

Lemma substring_0_0 (s : string) : substring 0 0 s = "".
Proof. now destruct s. Qed.

Lemma substring_prefix (a b : string) :
  substring 0 (String.length a) (a ++ b) = a.
Proof.
  induction a as [|c a IH]; simpl; [apply substring_0_0 | now rewrite IH].
Qed.

Lemma substring_skip (a b : string) (n m : nat) :
  substring (String.length a + n) m (a ++ b) = substring n m b.
Proof. induction a as [|c a IH]; simpl; [reflexivity | exact IH]. Qed.

Lemma substring_whole (s : string) : substring 0 (String.length s) s = s.
Proof.
  pose proof (substring_prefix s "") as H. now rewrite append_nil_r in H.
Qed.

(** X9: the rewrite in the text.  Let the file be some bytes, then the
    written type of a matched field, then one byte, then the field's name
    and the rest, with the declaration starting at the type and the name
    right after that one byte.  The replacement that [run] records
    covers the written type and nothing else, and applying it gives the
    same file with the new text in the place of the written type. *)
Theorem rewrite_in_place
  (before written_type rest : string) (separator : ascii)
  (field_decl : FieldDecl) (rs : list Replacement) :
  pointerType (getType field_decl) = true ->
  loc_file (getBeginLoc field_decl) = loc_file (getLocation field_decl) ->
  loc_offset (getBeginLoc field_decl) = Z.of_nat (String.length before) ->
  loc_offset (getLocation field_decl) =
  Z.of_nat (String.length before + String.length written_type + 1) ->
  loc_offset (getLocation field_decl) < 2 ^ 32 ->
  let text := (before ++ written_type ++ String separator rest)%string in
  exists new_text r,
    GenerateNewText (getType field_decl) = Done new_text /\
    run field_decl rs = Done (rs ++ [r])%list /\
    replaced_bytes text r = written_type /\
    apply_replacement text r =
    (before ++ new_text ++ String separator rest)%string.
Proof.
  intros Hptr Hfile Hbegin Hname Hmax. cbv zeta.
  assert (Hp := pointerType_isPointerType _ Hptr).
  exists (getReplacementText (field_edit field_decl)), (field_edit field_decl).
  split; [now apply GenerateNewText_isPointerType|].
  split; [now apply run_isPointerType|].
  rewrite (field_edit_span field_decl Hfile) by lia.
  unfold replaced_bytes, apply_replacement.
  cbn [getOffset getLength getReplacementText].
  rewrite Hbegin, Hname.
  replace (Z.of_nat (String.length before + String.length written_type + 1)
           - 1 - Z.of_nat (String.length before))
    with (Z.of_nat (String.length written_type)) by lia.
  rewrite !Nat2Z.id. split.
  - rewrite <- (Nat.add_0_r (String.length before)).
    rewrite substring_skip. apply substring_prefix.
  - rewrite substring_prefix. f_equal. f_equal.
    rewrite !length_append. cbn [String.length].
    replace (String.length before
             + (String.length written_type + S (String.length rest))
             - (String.length before + String.length written_type))%nat
      with (String.length (String separator rest)) by (simpl; lia).
    rewrite substring_skip.
    rewrite <- (Nat.add_0_r (String.length written_type)) at 1.
    rewrite substring_skip.
    apply substring_whole.
Qed.

Lemma rewrite_in_place_witness :
  exists new_text r,
    GenerateNewText (getType field_name_) = Done new_text /\
    run field_name_ [] = Done [r] /\
    replaced_bytes field_name_text r = "const Pointee* const" /\
    apply_replacement field_name_text r =
    (new_text ++ " field_name_;")%string.
Proof.
  apply (rewrite_in_place "" "const Pointee* const" "field_name_;" " "%char
                          field_name_ []);
    try reflexivity; simpl; lia.
Defined.
